(** * CheckoutForm: the validation rules and the submit path of the checkout form

    Source: [src/live-coding/src/components/blocks/CheckoutForm/index.tsx].

    The component glues three libraries together: a form-state hook
    ([react-use-models]), a validation hook ([react-joi]) driven by a [Joi]
    schema, and the card helpers of [creditcardutils].  The schema, the
    handlers and the rendering are the component's own code and are embedded
    below as they are written.  The card helpers and Joi's e-mail syntax
    check are interfaces the component only calls: they are class members
    here, so every result holds for any implementation of them.

    JavaScript strings are modelled by [string]; one character stands for
    one UTF-16 code unit, so [String.length] is the [.length] property. *)

From Stdlib Require Import String Ascii List Bool Arith Lia.
Import ListNotations.
Open Scope string_scope.

(** ** JavaScript values stored in the form *)

(** The model holds [string | null] per field; [undefined] appears as the
    value a validation function may hand back. *)
Inductive jsval : Type :=
| JUndefined
| JNull
| JStr (s : string).

(** [if (value)]: of the three kinds of value only a non-empty string is truthy. *)
Definition truthy (v : jsval) : bool :=
  match v with
  | JStr s => negb (s =? "")
  | _ => false
  end.

(** [a === b] *)
Definition strict_eq (a b : jsval) : bool :=
  match a, b with
  | JUndefined, JUndefined => true
  | JNull, JNull => true
  | JStr s, JStr t => s =? t
  | _, _ => false
  end.

(** [a !== b] *)
Definition strict_neq (a b : jsval) : bool := negb (strict_eq a b).

(** [Array.prototype.join] *)
Fixpoint join (sep : string) (l : list string) : string :=
  match l with
  | [] => ""
  | [x] => x
  | x :: rest => x ++ sep ++ join sep rest
  end.

(** A decimal digit, [0] to [9]. *)
Definition is_digit (a : ascii) : bool :=
  (48 <=? nat_of_ascii a)%nat && (nat_of_ascii a <=? 57)%nat.

(** Method chaining, [s.f(a)] written [s .> f a]. *)
Notation "s .> f" := (f s) (at level 50, left associativity, only parsing).

(** ** The fragment of Joi the schema uses *)

(** Modelled from the spec: Joi is a dependency of the component and its
    code is not among the sources; the spec has every field carry a
    required rule and one format-specific check, each failure with its
    message.  The constructors the schema is written with ([string],
    [email], [length], [custom], [required], [messages]) get that meaning
    here, evaluated in Joi's order: presence first, then the base type,
    then the rules in the order they were added. *)

Module Joi.

(** [{ tlds: { allow: ... } }] *)
Record EmailOptions : Type := { tlds_allow : bool }.

(** What the schema takes from Joi without spelling it out: the e-mail
    syntax check behind [.email(options)], and the text of a message the
    schema does not override (given the error code and the key). *)
Class Builtins : Type := {
  isEmailValid : EmailOptions -> string -> bool;
  default_message : string -> string -> string
}.

(** One entry of [error.details]. *)
Record ValidationErrorItem : Type := {
  path : string;
  type : string;
  message : string
}.

(** What a rule hands back: a value (possibly changed), an error made by
    [helpers.error(code)], or an exception. *)
Inductive RuleResult : Type :=
| Return (v : jsval)
| Error (code : string)
| Throw.

Inductive Rule : Type :=
| R_email (options : EmailOptions)
| R_length (limit : nat)
| R_custom (method : jsval -> RuleResult).

Inductive Presence : Type := Optional | Required.

(** A [Joi.string()] schema: its rules in the order they were added, the
    presence flag and the message overrides. *)
Record StringSchema : Type := {
  rules : list Rule;
  presence : Presence;
  overrides : list (string * string)
}.

Definition string : StringSchema :=
  {| rules := []; presence := Optional; overrides := [] |}.

Definition add_rule (r : Rule) (s : StringSchema) : StringSchema :=
  {| rules := rules s ++ [r]; presence := presence s; overrides := overrides s |}.

Definition email (options : EmailOptions) : StringSchema -> StringSchema :=
  add_rule (R_email options).

Definition length (limit : nat) : StringSchema -> StringSchema :=
  add_rule (R_length limit).

Definition custom (method : jsval -> RuleResult) : StringSchema -> StringSchema :=
  add_rule (R_custom method).

Definition required (s : StringSchema) : StringSchema :=
  {| rules := rules s; presence := Required; overrides := overrides s |}.

Definition messages (table : list (String.string * String.string)) (s : StringSchema) : StringSchema :=
  {| rules := rules s; presence := presence s; overrides := table ++ overrides s |}.

(** Validation preferences. *)
Record Preferences : Type := { abortEarly : bool }.

(** Result of a validation: the validated value, the error details, or an
    exception that escaped a rule. *)
Inductive Outcome (A : Type) : Type :=
| Valid (value : A)
| Invalid (details : list ValidationErrorItem)
| Thrown.
Arguments Valid {A} value.
Arguments Invalid {A} details.
Arguments Thrown {A}.

Definition is_valid {A : Type} (o : Outcome A) : bool :=
  match o with Valid _ => true | _ => false end.

Definition details_of {A : Type} (o : Outcome A) : list ValidationErrorItem :=
  match o with Invalid d => d | _ => [] end.

Definition messages_of {A : Type} (o : Outcome A) : list String.string :=
  map message (details_of o).

Fixpoint lookup (code : String.string) (table : list (String.string * String.string))
  : option String.string :=
  match table with
  | [] => None
  | (c, m) :: rest => if c =? code then Some m else lookup code rest
  end.

Section Validation.
Context `{Builtins}.

(** The error item for [code] at key [key]: the schema's own message when
    it overrides the code, Joi's text otherwise. *)
Definition report (s : StringSchema) (key code : String.string) : ValidationErrorItem :=
  {| path := key;
     type := code;
     message := match lookup code (overrides s) with
                | Some m => m
                | None => default_message code key
                end |}.

(** One rule on the current value.  The built-in string rules read the
    value as a string; an exception inside a custom method is caught and
    reported as [any.custom]. *)
Definition apply_rule (r : Rule) (value : jsval) : RuleResult :=
  match r with
  | R_email options =>
      match value with
      | JStr s => if isEmailValid options s then Return value else Error "string.email"
      | _ => Throw
      end
  | R_length limit =>
      match value with
      | JStr s => if Nat.eqb (String.length s) limit then Return value else Error "string.length"
      | _ => Throw
      end
  | R_custom method =>
      match method value with
      | Throw => Error "any.custom"
      | r => r
      end
  end.

(** The rules in order: a passing rule replaces the value by what it
    returned; a failing one records its code and, unless [abortEarly],
    lets the remaining rules run on the unchanged value.  [None] is an
    escaped exception. *)
Fixpoint run_rules (early : bool) (rs : list Rule) (value : jsval)
  : option (jsval * list String.string) :=
  match rs with
  | [] => Some (value, [])
  | r :: rest =>
      match apply_rule r value with
      | Throw => None
      | Error code =>
          if early then Some (value, [code])
          else match run_rules early rest value with
               | Some (v, codes) => Some (v, code :: codes)
               | None => None
               end
      | Return v => run_rules early rest v
      end
  end.

Definition allows_empty (s : StringSchema) : bool :=
  existsb (fun r => match r with R_length 0 => true | _ => false end) (rules s).

(** [schema.validate(value)] for one key: presence, then the base type
    ([null] is not a string, the empty string is [string.empty]; a base
    error always ends the validation), then the rules. *)
Definition validate (prefs : Preferences) (s : StringSchema) (key : String.string)
    (value : jsval) : Outcome jsval :=
  match value with
  | JUndefined =>
      match presence s with
      | Required => Invalid [report s key "any.required"]
      | Optional => Valid JUndefined
      end
  | JNull => Invalid [report s key "string.base"]
  | JStr v =>
      if (v =? "") && negb (allows_empty s) then Invalid [report s key "string.empty"]
      else match run_rules (abortEarly prefs) (rules s) value with
           | None => Thrown
           | Some (v', []) => Valid v'
           | Some (_, codes) => Invalid (map (report s key) codes)
           end
  end.

(** [Joi.object({...})] over keys of type [K]: the children in schema
    order.  With [abortEarly] the first failing child ends the run;
    otherwise the details of all children are collected.  A child whose
    validated value is [undefined] is left out of the validated object,
    which the pair [(k, JUndefined)] stands for. *)
Fixpoint validate_keys {K : Type} (prefs : Preferences) (label : K -> String.string)
    (keys : list (K * StringSchema)) (obj : K -> jsval)
  : Outcome (list (K * jsval)) :=
  match keys with
  | [] => Valid []
  | (k, s) :: rest =>
      match validate prefs s (label k) (obj k) with
      | Thrown => Thrown
      | Invalid d =>
          if abortEarly prefs then Invalid d
          else match validate_keys prefs label rest obj with
               | Thrown => Thrown
               | Invalid d' => Invalid (d ++ d')
               | Valid _ => Invalid d
               end
      | Valid v =>
          match validate_keys prefs label rest obj with
          | Thrown => Thrown
          | Invalid d' => Invalid d'
          | Valid vs => Valid ((k, v) :: vs)
          end
      end
  end.

End Validation.

End Joi.

(** ** The card helpers imported from creditcardutils *)

(** [{ month: number, year: number }] *)
Record TypeParseCardExpiry (number : Type) : Type := {
  month : number;
  year : number
}.
Arguments month {number} _.
Arguments year {number} _.

Module CreditCardUtils.

(** The helpers the component imports, with the types it uses them at.
    [number] is what [parseCardExpiry] puts in [month] and [year];
    [parseCardType] yields a brand name or [null]; [validateCardExpiry]
    compares with the current date, taken as fixed while the form is
    used. *)
Class Helpers : Type := {
  number : Type;
  validateCardNumber : string -> bool;
  formatCardNumber : string -> string;
  formatCardExpiry : string -> string;
  parseCardType : string -> jsval;
  validateCardExpiry : number -> number -> bool;
  parseCardExpiry : string -> TypeParseCardExpiry number
}.

End CreditCardUtils.

(** ** The validation holder *)

Module ReactJoi.

Section UseValidator.
Context `{Joi.Builtins}.
Context {D K : Type}.
Variable prefs : Joi.Preferences.
Variable label : K -> string.
Variable schema : list (K * Joi.StringSchema).
Variable get : D -> K -> jsval.

(** Modelled from the spec: the validation holder, the [useValidator]
    hook of react-joi, which the component calls and whose code is not
    among the sources.  It holds the data pushed into it ([$data]) and a
    result derived from that data through the schema: the error details
    ([$errors], kept here as one list with the key in [path]) and the
    aggregate flag [$auto_invalid].  The result is recomputed each time
    the data changes.  The error list here is the one a single validation
    of the whole object gives.  The hook itself keeps a list per field,
    validates each field on its own and fills a field's list only once the
    field was touched; that is left out, so the list here is the hook's
    for fields that hold typed text when [abortEarly] is off, and results
    on what is shown are stated for that case or hold either way. *)
Record State : Type := {
  data : D;
  errors : list Joi.ValidationErrorItem;
  auto_invalid : bool
}.

Definition evaluate (d : D) : State :=
  let outcome := Joi.validate_keys prefs label schema (get d) in
  {| data := d;
     errors := Joi.details_of outcome;
     auto_invalid := negb (Joi.is_valid outcome) |}.

(** [useValidator({ initialData, schema })] *)
Definition useValidator (initialData : D) : State := evaluate initialData.

(** [setData(values)] *)
Definition setData (values : D) (_ : State) : State := evaluate values.

(** [state.$errors[field]] *)
Definition errors_at (st : State) (field : K) : list Joi.ValidationErrorItem :=
  filter (fun item => Joi.path item =? label field) (errors st).

End UseValidator.

Arguments State D : clear implicits.

End ReactJoi.

(** ** The component *)

Module CheckoutForm.

Import CreditCardUtils.

Inductive FieldName : Type := F_email | F_card_number | F_card_expire | F_cvv.

(** The key of a field in the model and in the schema. *)
Definition key (name : FieldName) : string :=
  match name with
  | F_email => "email"
  | F_card_number => "card_number"
  | F_card_expire => "card_expire"
  | F_cvv => "cvv"
  end.

Record TypeCheckoutFormDefaultValues : Type := {
  email : jsval;
  card_number : jsval;
  card_expire : jsval;
  cvv : jsval
}.

Definition defaultState : TypeCheckoutFormDefaultValues :=
  {| email := JNull; card_number := JNull; card_expire := JNull; cvv := JNull |}.

(** [models[name]] *)
Definition get (models : TypeCheckoutFormDefaultValues) (name : FieldName) : jsval :=
  match name with
  | F_email => email models
  | F_card_number => card_number models
  | F_card_expire => card_expire models
  | F_cvv => cvv models
  end.

(** Modelled from the spec: [updateModel(name, value)] of the form state
    holder (react-use-models, not among the sources), which stores the
    value under the named field and leaves the other fields as they are. *)
Definition updateModel (name : FieldName) (value : jsval)
    (models : TypeCheckoutFormDefaultValues) : TypeCheckoutFormDefaultValues :=
  match name with
  | F_email =>
      {| email := value; card_number := card_number models;
         card_expire := card_expire models; cvv := cvv models |}
  | F_card_number =>
      {| email := email models; card_number := value;
         card_expire := card_expire models; cvv := cvv models |}
  | F_card_expire =>
      {| email := email models; card_number := card_number models;
         card_expire := value; cvv := cvv models |}
  | F_cvv =>
      {| email := email models; card_number := card_number models;
         card_expire := card_expire models; cvv := value |}
  end.

(** [CheckoutFormProps] without the callback, whose calls are recorded as
    [OnSuccess] below. *)
Record CheckoutFormProps : Type := {
  loading : bool;
  submitText : string
}.

Definition defaultProps : CheckoutFormProps :=
  {| loading := false; submitText := "Submit" |}.

(** What a handler does to the outside. *)
Inductive Call : Type :=
| PreventDefault
| OnSuccess (values : TypeCheckoutFormDefaultValues).

Section Component.
Context `{Joi.Builtins} `{Helpers}.

(** The validation options of the hook; the component passes none, so
    the hook's own default applies. *)
Variable prefs : Joi.Preferences.

(** *** The schema *)

Definition email_schema : Joi.StringSchema :=
  Joi.string
    .> Joi.email {| Joi.tlds_allow := false |}
    .> Joi.required
    .> Joi.messages
         [ ("string.empty", "Required");
           ("string.email", "Must be a valid email");
           ("any.required", "Required") ].

Definition card_number_custom (value : jsval) : Joi.RuleResult :=
  if truthy value then
    match value with
    | JStr s =>
        if negb (validateCardNumber s) then Joi.Error "string.cardNumber"
        else if strict_neq (parseCardType s) (JStr "mastercard")
                && strict_neq (parseCardType s) (JStr "visa")
             then Joi.Error "string.wrongCardType"
             else Joi.Return value
    | _ => Joi.Return value
    end
  else Joi.Return value.

Definition card_number_schema : Joi.StringSchema :=
  Joi.string
    .> Joi.custom card_number_custom
    .> Joi.required
    .> Joi.messages
         [ ("string.empty", "Required");
           ("string.cardNumber", "Must be a valid card");
           ("string.wrongCardType", "Wrong card number");
           ("any.required", "Required") ].

(** The method ends in a bare [return]: a passing value yields
    [undefined].  [parseCardExpiry] reads its argument as a string. *)
Definition card_expire_custom (value : jsval) : Joi.RuleResult :=
  match value with
  | JStr s =>
      let timeExpiry := parseCardExpiry s in
      if negb (validateCardExpiry (month timeExpiry) (year timeExpiry))
      then Joi.Error "string.wrong"
      else Joi.Return JUndefined
  | _ => Joi.Throw
  end.

Definition card_expire_schema : Joi.StringSchema :=
  Joi.string
    .> Joi.required
    .> Joi.custom card_expire_custom
    .> Joi.messages
         [ ("string.empty", "Required");
           ("string.wrong", "Wrong date");
           ("any.required", "Required") ].

Definition cvv_schema : Joi.StringSchema :=
  Joi.string
    .> Joi.length 3
    .> Joi.required
    .> Joi.messages
         [ ("string.empty", "Required");
           ("string.length", "Need 3 digits");
           ("any.required", "Required") ].

Definition field_schema (name : FieldName) : Joi.StringSchema :=
  match name with
  | F_email => email_schema
  | F_card_number => card_number_schema
  | F_card_expire => card_expire_schema
  | F_cvv => cvv_schema
  end.

(** [Joi.object({ email, card_number, card_expire, cvv })] *)
Definition schema : list (FieldName * Joi.StringSchema) :=
  [ (F_email, email_schema);
    (F_card_number, card_number_schema);
    (F_card_expire, card_expire_schema);
    (F_cvv, cvv_schema) ].

(** Validation of one field of the form. *)
Definition validate_field (name : FieldName) (value : jsval) : Joi.Outcome jsval :=
  Joi.validate prefs (field_schema name) (key name) value.

(** *** State, handlers and effect *)

Definition ValidatorState : Type := ReactJoi.State TypeCheckoutFormDefaultValues.

(** What the two hooks hold between two events. *)
Record Component : Type := {
  models : TypeCheckoutFormDefaultValues;
  state : ValidatorState
}.

Definition setData (values : TypeCheckoutFormDefaultValues) : ValidatorState -> ValidatorState :=
  ReactJoi.setData prefs key schema get values.

(** [getErrors(field)] *)
Definition getErrors (c : Component) (field : FieldName) : string :=
  join "," (map Joi.message (ReactJoi.errors_at key (state c) field)).

(** [onSubmit]: [e.preventDefault()], then [onSuccess(state.$data)]. *)
Definition onSubmit (c : Component) : list Call :=
  [PreventDefault; OnSuccess (ReactJoi.data (state c))].

(** [formatter.cardNumber] and [formatter.cardExpire], on [e.target.value]. *)
Definition formatter_cardNumber (target_value : string)
    (m : TypeCheckoutFormDefaultValues) : TypeCheckoutFormDefaultValues :=
  let value := formatCardNumber target_value in
  updateModel F_card_number (JStr value) m.

Definition formatter_cardExpire (target_value : string)
    (m : TypeCheckoutFormDefaultValues) : TypeCheckoutFormDefaultValues :=
  let value := formatCardExpiry target_value in
  updateModel F_card_expire (JStr value) m.

(** The change handler bound by [register.input]: the formatter where one
    is given, otherwise the typed text stored as it is. *)
Definition onChange (name : FieldName) (target_value : string)
    (m : TypeCheckoutFormDefaultValues) : TypeCheckoutFormDefaultValues :=
  match name with
  | F_card_number => formatter_cardNumber target_value m
  | F_card_expire => formatter_cardExpire target_value m
  | _ => updateModel name (JStr target_value) m
  end.

(** [useEffect(() => { setData(models) }, [models])] *)
Definition sync (c : Component) : Component :=
  {| models := models c; state := setData (models c) (state c) |}.

(** The component once mounted: both hooks start from [defaultState] and
    the effect has run. *)
Definition mount : Component :=
  sync {| models := defaultState;
          state := ReactJoi.useValidator prefs key schema get defaultState |}.

Inductive Event : Type :=
| Change (name : FieldName) (target_value : string)
| Submit.

(** One event handled to the end: a change stores the new value, which
    replaces [models] and so fires the effect; a submit calls out and
    leaves the state alone. *)
Definition step (e : Event) (c : Component) : Component * list Call :=
  match e with
  | Change name target_value =>
      (sync {| models := onChange name target_value (models c); state := state c |}, [])
  | Submit => (c, onSubmit c)
  end.

Fixpoint run (es : list Event) (c : Component) : Component :=
  match es with
  | [] => c
  | e :: rest => run rest (fst (step e c))
  end.

Inductive reachable : Component -> Prop :=
| reachable_mount : reachable mount
| reachable_step (e : Event) (c : Component) :
    reachable c -> reachable (fst (step e c)).

(** *** What is rendered *)

Record View : Type := {
  label_error : FieldName -> bool;
  input_value : FieldName -> jsval;
  error_message : FieldName -> option string;
  button_disabled : bool;
  button_text : string
}.

(** The labels of the e-mail and card-number fields carry
    [error={!!getErrors(..)}] (the other two fields have no label); an
    [ErrorMessage] is shown for a field when [getErrors] is non-empty;
    the button is [disabled={state.$auto_invalid || loading}]. *)
Definition render (props : CheckoutFormProps) (c : Component) : View :=
  {| label_error := fun name =>
       match name with
       | F_email | F_card_number => negb (getErrors c name =? "")
       | _ => false
       end;
     input_value := get (models c);
     error_message := fun name =>
       if getErrors c name =? "" then None else Some (getErrors c name);
     button_disabled := ReactJoi.auto_invalid (state c) || loading props;
     button_text := submitText props |}.

Definition onSuccess_calls (calls : list Call) : list TypeCheckoutFormDefaultValues :=
  flat_map (fun call => match call with OnSuccess v => [v] | PreventDefault => [] end) calls.

(** A field counts as empty when nothing was typed yet or its text was
    deleted. *)
Definition is_empty (v : jsval) : Prop := v = JNull \/ v = JStr "".

End Component.

End CheckoutForm.

(** ** Joi's e-mail check *)

(** Modelled from the spec: the e-mail shape the spec asks for is decided by
    the address module Joi delegates [.email(options)] to, whose code is
    not among the sources.  This is that check for a text of ASCII
    characters with the list of top-level domains switched off
    ([tlds: { allow: false }]): one [@]; a local part of at most 64
    characters in non-empty dot-separated atoms; a domain of at most 256
    characters in at least two dot-separated labels of at most 63
    characters, each of letters, digits and inner hyphens, the last one
    starting with a letter; at most 254 characters in all.  No list of
    registered top-level domains is looked at.  A text with other
    characters goes through Unicode normalisation and punycode, and a check
    with the list switched on compares with that list; neither is
    modelled, and the answer is [None]. *)

Module Address.

Definition chars : string -> list ascii := list_ascii_of_string.

Definition is_ascii (a : ascii) : bool := (nat_of_ascii a <? 128)%nat.

Definition is_letter (a : ascii) : bool :=
  ((65 <=? nat_of_ascii a)%nat && (nat_of_ascii a <=? 90)%nat)
  || ((97 <=? nat_of_ascii a)%nat && (nat_of_ascii a <=? 122)%nat).

Definition is_alnum (a : ascii) : bool := is_letter a || is_digit a.

Definition one_of (set : string) (a : ascii) : bool :=
  existsb (Ascii.eqb a) (chars set).

(** The characters of an atom of the local part. *)
Definition atext (a : ascii) : bool :=
  is_alnum a || one_of "_!#$%&'*+-/=?^`{|}~" a.

(** Characters that may not occur in a domain: controls, the space and
    separators. *)
Definition domain_control (a : ascii) : bool :=
  (nat_of_ascii a <=? 32)%nat || one_of "@:/\#!$&'()*+,;=?" a.

(** [s.split(sep)]: the pieces between the separators, empty pieces
    included. *)
Fixpoint split (sep : ascii) (s : string) : list string :=
  match s with
  | EmptyString => [EmptyString]
  | String a rest =>
      if Ascii.eqb a sep then EmptyString :: split sep rest
      else match split sep rest with
           | [] => [String a EmptyString]
           | piece :: pieces => String a piece :: pieces
           end
  end.

(** A label: a first character accepted by [first], then letters, digits
    and hyphens, ending in a letter or digit. *)
Definition label (first : ascii -> bool) (segment : string) : bool :=
  match chars segment with
  | [] => false
  | a :: rest =>
      first a
      && match rev rest with
         | [] => true
         | z :: inner =>
             is_alnum z && forallb (fun c => is_alnum c || Ascii.eqb c "-"%char) inner
         end
  end.

(** The labels of a domain in order; the last one is the top-level domain
    and has to start with a letter. *)
Fixpoint segments_ok (segments : list string) : bool :=
  match segments with
  | [] => true
  | [tld] => (String.length tld <=? 63)%nat && label is_letter tld
  | segment :: rest =>
      (String.length segment <=? 63)%nat && label is_alnum segment && segments_ok rest
  end.

Definition minDomainSegments : nat := 2.

Definition domain_isValid (domain : string) : bool :=
  negb (domain =? "")
  && (String.length domain <=? 256)%nat
  && negb (existsb domain_control (chars domain))
  && (minDomainSegments <=? List.length (split "." domain))%nat
  && segments_ok (split "." domain).

Definition local_isValid (local : string) : bool :=
  forallb (fun segment => negb (segment =? "") && forallb atext (chars segment))
          (split "." local).

Definition email_isValid (options : Joi.EmailOptions) (email : string) : option bool :=
  if Joi.tlds_allow options || negb (forallb is_ascii (chars email)) then None
  else Some
         match split "@" email with
         | [local; domain] =>
             negb (local =? "")
             && (String.length email <=? 254)%nat
             && (String.length local <=? 64)%nat
             && local_isValid local
             && domain_isValid domain
         | _ => false
         end.

End Address.

(** ** Sample helpers for the closed examples

    One implementation of each interface, simple enough to evaluate: a Luhn
    checksum over the digits of the number, the brand read off the leading
    digit, an expiry parsed from [MM / YY] and compared with November 2026,
    and the e-mail check modelled above.  The results about the component
    do not depend on them. *)

Module Sample.

Fixpoint digits (s : string) : list nat :=
  match s with
  | EmptyString => []
  | String a rest =>
      if is_digit a then (nat_of_ascii a - 48) :: digits rest else digits rest
  end.

Fixpoint digits_and_spaces (s : string) : bool :=
  match s with
  | EmptyString => true
  | String a rest => (is_digit a || Ascii.eqb a " "%char) && digits_and_spaces rest
  end.

Fixpoint luhn_sum (from_right : list nat) (plain : bool) : nat :=
  match from_right with
  | [] => 0
  | d :: rest =>
      (if plain then d else if (9 <? 2 * d)%nat then 2 * d - 9 else 2 * d)
      + luhn_sum rest (negb plain)
  end.

Definition luhn (s : string) : bool :=
  match digits s with
  | [] => false
  | ds => Nat.eqb (luhn_sum (rev ds) true mod 10) 0
  end.

Definition to_number (s : string) : option nat :=
  match digits s with
  | [] => None
  | ds => Some (fold_left (fun acc d => 10 * acc + d) ds 0)
  end.

Fixpoint before (sep : ascii) (s : string) : string :=
  match s with
  | EmptyString => EmptyString
  | String a rest => if Ascii.eqb a sep then EmptyString else String a (before sep rest)
  end.

Fixpoint after (sep : ascii) (s : string) : string :=
  match s with
  | EmptyString => EmptyString
  | String a rest => if Ascii.eqb a sep then rest else after sep rest
  end.

Definition in_or_after_november_2026 (m y : option nat) : bool :=
  match m, y with
  | Some m, Some y =>
      (1 <=? m)%nat && (m <=? 12)%nat && ((2026 <? y)%nat || (Nat.eqb y 2026 && (11 <=? m)%nat))
  | _, _ => false
  end.

#[export] Instance helpers : CreditCardUtils.Helpers := {|
  CreditCardUtils.number := option nat;
  CreditCardUtils.validateCardNumber := fun s => digits_and_spaces s && luhn s;
  CreditCardUtils.formatCardNumber := fun s => s;
  CreditCardUtils.formatCardExpiry := fun s => s;
  CreditCardUtils.parseCardType := fun s =>
    match digits s with
    | 4 :: _ => JStr "visa"
    | 5 :: _ => JStr "mastercard"
    | 3 :: _ => JStr "amex"
    | _ => JNull
    end;
  CreditCardUtils.validateCardExpiry := in_or_after_november_2026;
  CreditCardUtils.parseCardExpiry := fun s =>
    {| month := to_number (before "/" s);
       year := option_map (Nat.add 2000) (to_number (after "/" s)) |}
|}.

#[export] Instance builtins : Joi.Builtins := {|
  Joi.isEmailValid := fun options s =>
    match Address.email_isValid options s with
    | Some accepted => accepted
    | None => false
    end;
  Joi.default_message := fun code key => key ++ ": " ++ code
|}.

Definition prefs : Joi.Preferences := {| Joi.abortEarly := false |}.

Definition validate : CheckoutForm.FieldName -> jsval -> Joi.Outcome jsval :=
  CheckoutForm.validate_field prefs.

Definition after_events : list CheckoutForm.Event -> CheckoutForm.Component -> CheckoutForm.Component :=
  CheckoutForm.run prefs.

Definition submit : CheckoutForm.Component -> CheckoutForm.Component * list CheckoutForm.Call :=
  CheckoutForm.step prefs CheckoutForm.Submit.

(** The form after a customer filled in all four fields. *)
Definition filled : CheckoutForm.Component :=
  CheckoutForm.run prefs
    [ CheckoutForm.Change CheckoutForm.F_email "john@example.com";
      CheckoutForm.Change CheckoutForm.F_card_number "4242 4242 4242 4242";
      CheckoutForm.Change CheckoutForm.F_card_expire "12 / 30";
      CheckoutForm.Change CheckoutForm.F_cvv "123" ]
    (CheckoutForm.mount prefs).

End Sample.

(** * Results *)

Import CheckoutForm.

(** The claim about the CVV speaks of a string that consists of exactly
    three digits; this is that wording, next to the length check of the
    schema. *)
Definition consists_of_three_digits (s : string) : bool :=
  Nat.eqb (String.length s) 3 && forallb is_digit (list_ascii_of_string s).



(** ** Runs of the form

    What is needed to speak of a whole list of events and of the condition
    under which a typed text passes its field's rule. *)

Definition FieldName_eqb (a b : FieldName) : bool :=
  match a, b with
  | F_email, F_email => true
  | F_card_number, F_card_number => true
  | F_card_expire, F_card_expire => true
  | F_cvv, F_cvv => true
  | _, _ => false
  end.

Definition is_submit (e : Event) : bool :=
  match e with Submit => true | Change _ _ => false end.

Definition fields : list FieldName := [F_email; F_card_number; F_card_expire; F_cvv].

Section Runs.
Context `{Joi.Builtins} `{CreditCardUtils.Helpers}.
Variable prefs : Joi.Preferences.

(** The calls made while a list of events is handled, in the order they
    are made. *)
Fixpoint calls_of (es : list Event) (c : Component) : list Call :=
  match es with
  | [] => []
  | e :: rest => snd (step prefs e c) ++ calls_of rest (fst (step prefs e c))
  end.

(** The text a change event leaves in its field: what was typed, passed
    through the formatter where the field has one. *)
Definition stored (name : FieldName) (target_value : string) : jsval :=
  match name with
  | F_card_number => JStr (CreditCardUtils.formatCardNumber target_value)
  | F_card_expire => JStr (CreditCardUtils.formatCardExpiry target_value)
  | _ => JStr target_value
  end.

(** The value last stored in a field by a list of events, [start] when no
    event changed the field. *)
Fixpoint last_stored (name : FieldName) (es : list Event) (start : jsval) : jsval :=
  match es with
  | [] => start
  | Change n target_value :: rest =>
      last_stored name rest (if FieldName_eqb n name then stored n target_value else start)
  | Submit :: rest => last_stored name rest start
  end.

(** The check each field's rule makes on a non-empty text. *)
Definition passes (name : FieldName) (s : string) : bool :=
  match name with
  | F_email => Joi.isEmailValid {| Joi.tlds_allow := false |} s
  | F_card_number =>
      CreditCardUtils.validateCardNumber s
      && (strict_eq (CreditCardUtils.parseCardType s) (JStr "mastercard")
          || strict_eq (CreditCardUtils.parseCardType s) (JStr "visa"))
  | F_card_expire =>
      CreditCardUtils.validateCardExpiry
        (month (CreditCardUtils.parseCardExpiry s))
        (year (CreditCardUtils.parseCardExpiry s))
  | F_cvv => Nat.eqb (String.length s) 3
  end.

(** The value Joi reports for a text that passed: the text itself, except
    for the expiry, whose method returns nothing. *)
Definition validated (name : FieldName) (s : string) : jsval :=
  match name with
  | F_card_expire => JUndefined
  | _ => JStr s
  end.

End Runs.

(** ** JavaScript values *)

Lemma strict_eq_true (a b : jsval) : strict_eq a b = true <-> a = b.
Proof.
  destruct a, b; simpl; split; intro E; try discriminate; try reflexivity.
  - apply String.eqb_eq in E. now subst.
  - injection E as ->. apply String.eqb_refl.
Qed.

Lemma strict_neq_true (a b : jsval) : strict_neq a b = true <-> a <> b.
Proof.
  unfold strict_neq. rewrite negb_true_iff, <- not_true_iff_false, strict_eq_true.
  reflexivity.
Qed.

Lemma truthy_nonempty (s : string) : s <> "" -> truthy (JStr s) = true.
Proof.
  intro N. simpl. apply negb_true_iff. now apply String.eqb_neq.
Qed.

(** ** Validation of one key *)

Section OneKey.
Context `{Joi.Builtins}.
Variable prefs : Joi.Preferences.

(** A non-empty string goes straight to the rules; with a single rule the
    outcome is that rule's verdict, whatever [abortEarly] says. *)
Lemma validate_one_rule (sch : Joi.StringSchema) (k : string) (r : Joi.Rule) (s : string) :
  Joi.rules sch = [r] ->
  s <> "" ->
  Joi.validate prefs sch k (JStr s) =
    match Joi.apply_rule r (JStr s) with
    | Joi.Return v => Joi.Valid v
    | Joi.Error code => Joi.Invalid [Joi.report sch k code]
    | Joi.Throw => Joi.Thrown
    end.
Proof.
  intros R N. unfold Joi.validate.
  rewrite (proj2 (String.eqb_neq s "") N). simpl. rewrite R. simpl.
  destruct (Joi.apply_rule r (JStr s)); destruct (Joi.abortEarly prefs); reflexivity.
Qed.

(** On a string no rule throws: the built-in rules test it, and what a
    custom method throws is caught. *)
Lemma apply_rule_on_string (r : Joi.Rule) (s : string) :
  Joi.apply_rule r (JStr s) <> Joi.Throw.
Proof.
  destruct r as [o|n|m]; simpl.
  - destruct (Joi.isEmailValid o s); discriminate.
  - destruct (Nat.eqb (String.length s) n); discriminate.
  - destruct (m (JStr s)); discriminate.
Qed.

Lemma validate_empty (sch : Joi.StringSchema) (k : string) :
  Joi.allows_empty sch = false ->
  Joi.validate prefs sch k (JStr "") = Joi.Invalid [Joi.report sch k "string.empty"].
Proof.
  intro A. unfold Joi.validate. rewrite A. reflexivity.
Qed.

End OneKey.

(** ** The four field rules *)

Section Fields.
Context `{Joi.Builtins} `{CreditCardUtils.Helpers}.
Variable prefs : Joi.Preferences.

Lemma field_rules (name : FieldName) :
  exists r, Joi.rules (field_schema name) = [r].
Proof.
  destruct name; eexists; reflexivity.
Qed.

Lemma field_allows_empty (name : FieldName) :
  Joi.allows_empty (field_schema name) = false.
Proof.
  destruct name; reflexivity.
Qed.

(** An empty text is answered with [Required] in every field. *)
Lemma validate_field_empty (name : FieldName) :
  Joi.messages_of (validate_field prefs name (JStr "")) = ["Required"].
Proof.
  unfold validate_field. rewrite validate_empty by apply field_allows_empty.
  destruct name; reflexivity.
Qed.

(** A field that was never typed in holds [null], which is not a string. *)
Lemma validate_field_null (name : FieldName) :
  validate_field prefs name JNull =
    Joi.Invalid [Joi.report (field_schema name) (key name) "string.base"].
Proof.
  reflexivity.
Qed.

(** No rule of the form lets an exception escape. *)
Lemma validate_field_not_thrown (name : FieldName) (v : jsval) :
  validate_field prefs name v <> Joi.Thrown.
Proof.
  destruct v as [| |s].
  - destruct name; discriminate.
  - discriminate.
  - destruct (String.eqb_spec s "") as [->|N].
    + unfold validate_field. rewrite validate_empty by apply field_allows_empty.
      discriminate.
    + destruct (field_rules name) as [r R]. unfold validate_field.
      rewrite (validate_one_rule prefs _ _ r s R N).
      pose proof (apply_rule_on_string r s) as T.
      destruct (Joi.apply_rule r (JStr s)); [discriminate|discriminate|contradiction].
Qed.

(** Only a non-empty string can pass a field's validation. *)
Lemma valid_field_nonempty (name : FieldName) (v : jsval) :
  Joi.is_valid (validate_field prefs name v) = true ->
  exists s, v = JStr s /\ s <> "".
Proof.
  destruct v as [| |s]; intro V.
  - destruct name; discriminate.
  - discriminate.
  - exists s. split; [reflexivity|]. intros ->.
    pose proof (validate_field_empty name) as E.
    destruct (validate_field prefs name (JStr "")); discriminate.
Qed.

(** The custom method of the card number on a non-empty string. *)
Lemma card_number_custom_nonempty (s : string) :
  s <> "" ->
  card_number_custom (JStr s) =
    if negb (CreditCardUtils.validateCardNumber s) then Joi.Error "string.cardNumber"
    else if strict_neq (CreditCardUtils.parseCardType s) (JStr "mastercard")
            && strict_neq (CreditCardUtils.parseCardType s) (JStr "visa")
         then Joi.Error "string.wrongCardType"
         else Joi.Return (JStr s).
Proof.
  intro N. unfold card_number_custom. now rewrite truthy_nonempty.
Qed.

(** C3 (as amended). The CVV passes exactly when its text has three
    characters, digits or not; three digits therefore pass; a non-empty
    text of another length is rejected with the single message
    "Need 3 digits", and the empty text with "Required". *)
Theorem cvv_valid_iff_length_three (s : string) :
  (Joi.is_valid (validate_field prefs F_cvv (JStr s)) = true <-> String.length s = 3)
  /\ (consists_of_three_digits s = true ->
      validate_field prefs F_cvv (JStr s) = Joi.Valid (JStr s))
  /\ (String.length s <> 3 -> s <> "" ->
      Joi.messages_of (validate_field prefs F_cvv (JStr s)) = ["Need 3 digits"])
  /\ (s = "" ->
      Joi.messages_of (validate_field prefs F_cvv (JStr s)) = ["Required"]).
Proof.
  assert (L : s <> "" ->
              validate_field prefs F_cvv (JStr s) =
                if Nat.eqb (String.length s) 3 then Joi.Valid (JStr s)
                else Joi.Invalid [Joi.report cvv_schema "cvv" "string.length"]).
  { intro N. unfold validate_field.
    erewrite validate_one_rule by (reflexivity || exact N). simpl.
    destruct (Nat.eqb (String.length s) 3); reflexivity. }
  repeat split.
  - intro V. destruct (valid_field_nonempty _ _ V) as (s' & E & N).
    injection E as <-. rewrite (L N) in V.
    destruct (Nat.eqb_spec (String.length s) 3); [assumption|discriminate].
  - intro E. assert (N : s <> "") by (intros ->; discriminate).
    rewrite (L N), E. reflexivity.
  - unfold consists_of_three_digits. intro D.
    apply andb_true_iff in D as [D _]. apply Nat.eqb_eq in D.
    assert (N : s <> "") by (intros ->; discriminate).
    rewrite (L N), D. reflexivity.
  - intros D N. rewrite (L N).
    destruct (Nat.eqb_spec (String.length s) 3); [contradiction|reflexivity].
  - intros ->. apply validate_field_empty.
Qed.

(** C4. A non-empty card number that [validateCardNumber] rejects gets the
    single message "Must be a valid card", whatever brand [parseCardType]
    reads from it. *)
Theorem card_number_luhn_invalid (s : string) :
  s <> "" ->
  CreditCardUtils.validateCardNumber s = false ->
  validate_field prefs F_card_number (JStr s) =
    Joi.Invalid [ {| Joi.path := "card_number";
                     Joi.type := "string.cardNumber";
                     Joi.message := "Must be a valid card" |} ].
Proof.
  intros N L. unfold validate_field.
  erewrite validate_one_rule by (reflexivity || exact N). simpl.
  rewrite (card_number_custom_nonempty s N), L. reflexivity.
Qed.

(** C5. A non-empty card number that [validateCardNumber] accepts and whose
    parsed type is neither "mastercard" nor "visa" gets the single message
    "Wrong card number". *)
Theorem card_number_wrong_brand (s : string) :
  s <> "" ->
  CreditCardUtils.validateCardNumber s = true ->
  CreditCardUtils.parseCardType s <> JStr "mastercard" ->
  CreditCardUtils.parseCardType s <> JStr "visa" ->
  validate_field prefs F_card_number (JStr s) =
    Joi.Invalid [ {| Joi.path := "card_number";
                     Joi.type := "string.wrongCardType";
                     Joi.message := "Wrong card number" |} ].
Proof.
  intros N L M V. unfold validate_field.
  erewrite validate_one_rule by (reflexivity || exact N). simpl.
  rewrite (card_number_custom_nonempty s N), L. simpl.
  rewrite (proj2 (strict_neq_true _ _) M), (proj2 (strict_neq_true _ _) V).
  reflexivity.
Qed.

(** C6. For a non-empty expiry text: when [validateCardExpiry] rejects the
    parsed month and year the field gets the single message "Wrong date";
    when it accepts them the field passes validation. *)
Theorem card_expire_wrong_date_or_pass (s : string) :
  s <> "" ->
  let timeExpiry := CreditCardUtils.parseCardExpiry s in
  (CreditCardUtils.validateCardExpiry (month timeExpiry) (year timeExpiry) = false ->
   validate_field prefs F_card_expire (JStr s) =
     Joi.Invalid [ {| Joi.path := "card_expire";
                      Joi.type := "string.wrong";
                      Joi.message := "Wrong date" |} ])
  /\ (CreditCardUtils.validateCardExpiry (month timeExpiry) (year timeExpiry) = true ->
      Joi.is_valid (validate_field prefs F_card_expire (JStr s)) = true).
Proof.
  intros N timeExpiry. unfold validate_field.
  erewrite validate_one_rule by (reflexivity || exact N). simpl.
  fold timeExpiry.
  split; intros ->; reflexivity.
Qed.


End Fields.

(** ** The whole object *)

Section Object.
Context `{Joi.Builtins}.
Variable prefs : Joi.Preferences.

(** The object is valid exactly when each of its children is, with or
    without [abortEarly]. *)
Lemma validate_keys_valid {K : Type} (label : K -> string)
    (keys : list (K * Joi.StringSchema)) (obj : K -> jsval) :
  Joi.is_valid (Joi.validate_keys prefs label keys obj) = true <->
  Forall (fun ks => Joi.is_valid (Joi.validate prefs (snd ks) (label (fst ks)) (obj (fst ks))) = true)
         keys.
Proof.
  induction keys as [|[k s] rest IH]; simpl.
  - split; [constructor|reflexivity].
  - rewrite Forall_cons_iff, <- IH. simpl.
    destruct (Joi.validate prefs s (label k) (obj k));
      destruct (Joi.abortEarly prefs);
      destruct (Joi.validate_keys prefs label rest obj);
      simpl; intuition discriminate.
Qed.

End Object.

(** ** The form between events *)

Section Form.
Context `{Joi.Builtins} `{CreditCardUtils.Helpers}.
Variable prefs : Joi.Preferences.

Lemma object_valid_iff (m : TypeCheckoutFormDefaultValues) :
  Joi.is_valid (Joi.validate_keys prefs key schema (get m)) = true <->
  forall name, Joi.is_valid (validate_field prefs name (get m name)) = true.
Proof.
  rewrite validate_keys_valid. unfold schema, validate_field. split.
  - intros F name. repeat rewrite Forall_cons_iff in F.
    destruct F as (E & N & X & C & _). destruct name; assumption.
  - intro A. repeat constructor.
    + apply (A F_email).
    + apply (A F_card_number).
    + apply (A F_card_expire).
    + apply (A F_cvv).
Qed.

(** Between two events the validator holds the model's values and the
    result derived from them. *)
Lemma reachable_in_sync (c : Component) :
  reachable prefs c ->
  state c = ReactJoi.evaluate prefs key schema get (models c).
Proof.
  induction 1 as [|e c R IH].
  - reflexivity.
  - destruct e as [name v|]; [reflexivity|exact IH].
Qed.

(** So the button follows the validity of the model itself. *)
Lemma disabled_in_sync (props : CheckoutFormProps) (c : Component) :
  reachable prefs c ->
  button_disabled (render props c) =
    negb (Joi.is_valid (Joi.validate_keys prefs key schema (get (models c))))
    || loading props.
Proof.
  intro R.
  change (button_disabled (render props c))
    with (ReactJoi.auto_invalid (state c) || loading props).
  rewrite (reachable_in_sync c R). reflexivity.
Qed.

Lemma reachable_run (es : list Event) (c : Component) :
  reachable prefs c -> reachable prefs (run prefs es c).
Proof.
  revert c. induction es as [|e es IH]; intros c R; simpl.
  - exact R.
  - apply IH. now apply reachable_step.
Qed.

(** C1. When a submit event fires in a state of the form in which all four
    fields pass their rules, [onSuccess] is called exactly once; its
    argument is the validator's data, which holds the current values of the
    fields.  (In such a state the button is disabled only while loading.) *)
Theorem submit_valid_calls_onSuccess_once (props : CheckoutFormProps) (c : Component) :
  reachable prefs c ->
  (forall name, Joi.is_valid (validate_field prefs name (get (models c) name)) = true) ->
  snd (step prefs Submit c) = [PreventDefault; OnSuccess (ReactJoi.data (state c))]
  /\ List.length (onSuccess_calls (snd (step prefs Submit c))) = 1
  /\ onSuccess_calls (snd (step prefs Submit c)) = [models c]
  /\ button_disabled (render props c) = loading props.
Proof.
  intros R V. pose proof (reachable_in_sync c R) as S.
  apply object_valid_iff in V.
  split; [reflexivity|]. split; [reflexivity|]. split.
  - change (onSuccess_calls (snd (step prefs Submit c))) with [ReactJoi.data (state c)].
    rewrite S. reflexivity.
  - rewrite disabled_in_sync by exact R. rewrite V. reflexivity.
Qed.

(** C2. In every state of the form in which one of the four fields is
    empty the submit button is rendered disabled.  What validation found
    reaches nothing but the error marks, the error texts and the button: a
    state with the same model and validator data but other validation
    results shows the same input values and button text, stores the same
    model on every event and makes the same calls. *)
Theorem empty_field_disables_submit (props : CheckoutFormProps) (c : Component)
    (name : FieldName) :
  reachable prefs c ->
  is_empty (get (models c) name) ->
  button_disabled (render props c) = true
  /\ forall c' : Component,
       models c' = models c ->
       ReactJoi.data (state c') = ReactJoi.data (state c) ->
       (forall n, input_value (render props c') n = input_value (render props c) n)
       /\ button_text (render props c') = button_text (render props c)
       /\ forall e, models (fst (step prefs e c')) = models (fst (step prefs e c))
                    /\ snd (step prefs e c') = snd (step prefs e c).
Proof.
  intros R E. split.
  - rewrite disabled_in_sync by exact R.
    destruct (Joi.is_valid (Joi.validate_keys prefs key schema (get (models c)))) eqn:V;
      [|reflexivity].
    rewrite object_valid_iff in V.
    destruct (valid_field_nonempty prefs name _ (V name)) as (s & Es & N).
    destruct E as [E|E]; rewrite E in Es; [discriminate|].
    injection Es as <-. contradiction.
  - intros c' M D. repeat split.
    + intro n. simpl. now rewrite M.
    + destruct e as [n v|]; simpl; [now rewrite M|exact M].
    + destruct e as [n v|]; simpl; [reflexivity|]. unfold onSubmit. now rewrite D.
Qed.

(** C8. After a change of any field the effect has pushed the new model
    into the validator: its data is the new model, and its errors and its
    aggregate flag are those the schema gives for the new model. *)
Theorem change_pushes_model_into_validator (c : Component) (name : FieldName)
    (target_value : string) :
  let c' := fst (step prefs (Change name target_value) c) in
  models c' = onChange name target_value (models c)
  /\ ReactJoi.data (state c') = models c'
  /\ ReactJoi.errors (state c') =
       Joi.details_of (Joi.validate_keys prefs key schema (get (models c')))
  /\ ReactJoi.auto_invalid (state c') =
       negb (Joi.is_valid (Joi.validate_keys prefs key schema (get (models c')))).
Proof.
  repeat split.
Qed.

(** C9. [onSubmit] calls [onSuccess] with the validator's data in any state
    whatever, valid or not: right after mounting, with all four fields
    still [null], a submit that reaches the handler hands [defaultState] to
    the callback.  Validity enters the form only through the button, which
    is disabled when [$auto_invalid] or [loading] is set. *)
Theorem onSubmit_is_unconditional (props : CheckoutFormProps) (c : Component) :
  snd (step prefs Submit c) = [PreventDefault; OnSuccess (ReactJoi.data (state c))]
  /\ onSuccess_calls (onSubmit c) = [ReactJoi.data (state c)]
  /\ onSuccess_calls (snd (step prefs Submit (mount prefs))) = [defaultState]
  /\ ReactJoi.auto_invalid (state (mount prefs)) = true
  /\ button_disabled (render props c) = ReactJoi.auto_invalid (state c) || loading props.
Proof.
  repeat split.
  cbn. destruct (Joi.abortEarly prefs); reflexivity.
Qed.

(** C10 (as amended). For an expiry text that passes the expiry check the
    custom method returns [undefined], so the value Joi reports as
    validated for [card_expire] is [undefined]; the validator's data, which
    [onSubmit] hands to [onSuccess], still holds the text that was pushed
    into it. *)
Theorem card_expire_validated_undefined_data_kept (c : Component) (s : string) :
  reachable prefs c ->
  card_expire (models c) = JStr s ->
  s <> "" ->
  CreditCardUtils.validateCardExpiry
    (month (CreditCardUtils.parseCardExpiry s))
    (year (CreditCardUtils.parseCardExpiry s)) = true ->
  card_expire_custom (JStr s) = Joi.Return JUndefined
  /\ validate_field prefs F_card_expire (JStr s) = Joi.Valid JUndefined
  /\ card_expire (ReactJoi.data (state c)) = JStr s
  /\ exists values, onSubmit c = [PreventDefault; OnSuccess values]
                    /\ card_expire values = JStr s.
Proof.
  intros R M N V. pose proof (reachable_in_sync c R) as S.
  assert (C : card_expire_custom (JStr s) = Joi.Return JUndefined).
  { unfold card_expire_custom. cbv zeta. rewrite V. reflexivity. }
  repeat split.
  - exact C.
  - unfold validate_field.
    erewrite validate_one_rule by (reflexivity || exact N).
    cbn [Joi.apply_rule]. rewrite C. reflexivity.
  - rewrite S. exact M.
  - exists (ReactJoi.data (state c)). split; [reflexivity|]. rewrite S. exact M.
Qed.

End Form.

(** ** The results on a filled-in form

    The statements above at concrete inputs, with the sample helpers. *)

Lemma filled_is_reachable : @reachable Sample.builtins Sample.helpers Sample.prefs Sample.filled.
Proof.
  apply reachable_run, reachable_mount.
Defined.

(** C1 on the filled-in form: one call, with the four texts. *)
Lemma submit_valid_calls_onSuccess_once_filled :
  snd (Sample.submit Sample.filled)
    = [PreventDefault; OnSuccess (ReactJoi.data (state Sample.filled))]
  /\ List.length (onSuccess_calls (snd (Sample.submit Sample.filled))) = 1
  /\ onSuccess_calls (snd (Sample.submit Sample.filled)) = [models Sample.filled]
  /\ button_disabled (render defaultProps Sample.filled) = false.
Proof.
  apply (@submit_valid_calls_onSuccess_once
           Sample.builtins Sample.helpers Sample.prefs defaultProps Sample.filled).
  - exact filled_is_reachable.
  - intros []; vm_compute; reflexivity.
Defined.

(** C2 after the e-mail was typed and deleted again on the filled-in form. *)
Lemma empty_field_disables_submit_cleared :
  button_disabled
    (render defaultProps (Sample.after_events [Change F_email ""] Sample.filled)) = true.
Proof.
  apply (@empty_field_disables_submit
           Sample.builtins Sample.helpers Sample.prefs defaultProps
           (Sample.after_events [Change F_email ""] Sample.filled) F_email).
  - apply reachable_run, filled_is_reachable.
  - right. vm_compute. reflexivity.
Defined.

(** C3, what the claim says against what the schema does: three letters
    pass although they are no digits, and the empty text, whose length is
    not 3, is answered with "Required" and not with "Need 3 digits". *)
Lemma cvv_letters_pass_and_empty_is_required :
  (Joi.is_valid (Sample.validate F_cvv (JStr "abc")) = true
   /\ consists_of_three_digits "abc" = false)
  /\ (String.length "" <> 3
      /\ Joi.messages_of (Sample.validate F_cvv (JStr "")) = ["Required"]
      /\ Joi.messages_of (Sample.validate F_cvv (JStr "")) <> ["Need 3 digits"]).
Proof.
  repeat split; try reflexivity; discriminate.
Qed.

(** C3 as amended, on three digits and on two. *)
Lemma cvv_valid_iff_length_three_samples :
  Sample.validate F_cvv (JStr "123") = Joi.Valid (JStr "123")
  /\ Joi.messages_of (Sample.validate F_cvv (JStr "12")) = ["Need 3 digits"].
Proof.
  split.
  - apply (@cvv_valid_iff_length_three Sample.builtins Sample.helpers Sample.prefs "123").
    vm_compute. reflexivity.
  - apply (@cvv_valid_iff_length_three Sample.builtins Sample.helpers Sample.prefs "12").
    + simpl. lia.
    + discriminate.
Defined.

(** C4 on a Visa number with its last digit changed. *)
Lemma card_number_luhn_invalid_sample :
  Joi.messages_of (Sample.validate F_card_number (JStr "4242 4242 4242 4241"))
    = ["Must be a valid card"].
Proof.
  unfold Sample.validate.
  rewrite (@card_number_luhn_invalid
             Sample.builtins Sample.helpers Sample.prefs "4242 4242 4242 4241").
  - reflexivity.
  - discriminate.
  - vm_compute. reflexivity.
Defined.

(** C5 on an American Express number, which passes the checksum. *)
Lemma card_number_wrong_brand_sample :
  Joi.messages_of (Sample.validate F_card_number (JStr "3782 822463 10005"))
    = ["Wrong card number"].
Proof.
  unfold Sample.validate.
  rewrite (@card_number_wrong_brand
             Sample.builtins Sample.helpers Sample.prefs "3782 822463 10005").
  - reflexivity.
  - discriminate.
  - vm_compute. reflexivity.
  - vm_compute. discriminate.
  - vm_compute. discriminate.
Defined.

(** C6 on January 2020 and on December 2030. *)
Lemma card_expire_wrong_date_or_pass_samples :
  Joi.messages_of (Sample.validate F_card_expire (JStr "01 / 20")) = ["Wrong date"]
  /\ Joi.is_valid (Sample.validate F_card_expire (JStr "12 / 30")) = true.
Proof.
  split.
  - unfold Sample.validate.
    rewrite (proj1 (@card_expire_wrong_date_or_pass
                      Sample.builtins Sample.helpers Sample.prefs "01 / 20"
                      ltac:(discriminate))).
    + reflexivity.
    + vm_compute. reflexivity.
  - apply (@card_expire_wrong_date_or_pass
             Sample.builtins Sample.helpers Sample.prefs "12 / 30").
    + discriminate.
    + vm_compute. reflexivity.
Defined.

(** C10, what the claim says against what the form does: on the filled-in
    form the expiry text passes its check, and the entry the validator
    holds and hands to [onSuccess] is that text, not [undefined]. *)
Lemma card_expire_entry_is_not_undefined :
  Joi.is_valid (Sample.validate F_card_expire (card_expire (models Sample.filled))) = true
  /\ card_expire (ReactJoi.data (state Sample.filled)) = JStr "12 / 30"
  /\ card_expire (ReactJoi.data (state Sample.filled)) <> JUndefined
  /\ onSuccess_calls (snd (Sample.submit Sample.filled))
       = [ {| email := JStr "john@example.com";
              card_number := JStr "4242 4242 4242 4242";
              card_expire := JStr "12 / 30";
              cvv := JStr "123" |} ].
Proof.
  repeat split; try reflexivity; discriminate.
Qed.

(** C10 as amended, on the filled-in form. *)
Lemma card_expire_validated_undefined_data_kept_filled :
  @card_expire_custom Sample.helpers (JStr "12 / 30") = Joi.Return JUndefined
  /\ Sample.validate F_card_expire (JStr "12 / 30") = Joi.Valid JUndefined
  /\ card_expire (ReactJoi.data (state Sample.filled)) = JStr "12 / 30"
  /\ exists values, onSubmit Sample.filled = [PreventDefault; OnSuccess values]
                    /\ card_expire values = JStr "12 / 30".
Proof.
  apply (@card_expire_validated_undefined_data_kept
           Sample.builtins Sample.helpers Sample.prefs Sample.filled "12 / 30").
  - exact filled_is_reachable.
  - reflexivity.
  - discriminate.
  - vm_compute. reflexivity.
Defined.

(** * Further properties of the form *)

(** ** The verdict on one field *)

Section Verdicts.
Context `{Joi.Builtins} `{CreditCardUtils.Helpers}.
Variable prefs : Joi.Preferences.

Lemma card_number_custom_verdict (s : string) :
  s <> "" ->
  card_number_custom (JStr s) =
    if passes F_card_number s then Joi.Return (JStr s)
    else if CreditCardUtils.validateCardNumber s
         then Joi.Error "string.wrongCardType"
         else Joi.Error "string.cardNumber".
Proof.
  intro N. rewrite (card_number_custom_nonempty s N). unfold passes, strict_neq.
  destruct (CreditCardUtils.validateCardNumber s); simpl; [|reflexivity].
  destruct (strict_eq (CreditCardUtils.parseCardType s) (JStr "mastercard"));
    destruct (strict_eq (CreditCardUtils.parseCardType s) (JStr "visa")); reflexivity.
Qed.

(** A non-empty text either passes, and Joi reports [validated], or it
    draws one error whose message the field's own table supplies. *)
Lemma field_verdict (name : FieldName) (s : string) :
  s <> "" ->
  (passes name s = true /\
   validate_field prefs name (JStr s) = Joi.Valid (validated name s))
  \/ (passes name s = false /\
      exists code msg,
        validate_field prefs name (JStr s) =
          Joi.Invalid [ {| Joi.path := key name; Joi.type := code; Joi.message := msg |} ]
        /\ Joi.lookup code (Joi.overrides (field_schema name)) = Some msg).
Proof.
  intro N. unfold validate_field.
  destruct name; erewrite validate_one_rule by (reflexivity || exact N);
    cbn [Joi.apply_rule passes validated].
  - destruct (Joi.isEmailValid _ s); [left|right]; split; try reflexivity.
    do 2 eexists. split; reflexivity.
  - rewrite (card_number_custom_verdict s N).
    change (passes F_card_number s) with
      (CreditCardUtils.validateCardNumber s
       && (strict_eq (CreditCardUtils.parseCardType s) (JStr "mastercard")
           || strict_eq (CreditCardUtils.parseCardType s) (JStr "visa"))).
    destruct (CreditCardUtils.validateCardNumber s
              && (strict_eq (CreditCardUtils.parseCardType s) (JStr "mastercard")
                  || strict_eq (CreditCardUtils.parseCardType s) (JStr "visa")));
      [left; split; reflexivity|right; split; [reflexivity|]].
    destruct (CreditCardUtils.validateCardNumber s);
      do 2 eexists; split; reflexivity.
  - unfold card_expire_custom. cbv zeta.
    destruct (CreditCardUtils.validateCardExpiry _ _); [left|right]; split; try reflexivity.
    do 2 eexists. split; reflexivity.
  - destruct (Nat.eqb (String.length s) 3); [left|right]; split; try reflexivity.
    do 2 eexists. split; reflexivity.
Qed.

(** Which values pass a field. *)
Lemma field_passes_iff (name : FieldName) (v : jsval) :
  Joi.is_valid (validate_field prefs name v) = true <->
  exists s, v = JStr s /\ s <> "" /\ passes name s = true.
Proof.
  split.
  - intro V. destruct (valid_field_nonempty prefs name v V) as (s & -> & N).
    exists s. repeat split; try assumption.
    destruct (field_verdict name s N) as [[P _]|[_ (code & msg & E & _)]];
      [exact P|]. rewrite E in V. discriminate.
  - intros (s & -> & N & P).
    destruct (field_verdict name s N) as [[_ E]|[P' _]].
    + rewrite E. reflexivity.
    + rewrite P in P'. discriminate.
Qed.

(** A field's verdict is the same under every validation option. *)
Lemma validate_field_any_prefs (other : Joi.Preferences) (name : FieldName) (v : jsval) :
  validate_field prefs name v = validate_field other name v.
Proof.
  destruct v as [| |s]; try reflexivity.
  destruct (String.eqb_spec s "") as [->|N].
  - unfold validate_field. now rewrite !validate_empty by apply field_allows_empty.
  - destruct (field_rules name) as [r R]. unfold validate_field.
    now rewrite !(validate_one_rule _ _ _ r s R N).
Qed.

(** Whatever a field holds, its validation reports at most one error, and
    that error sits at the field's own key. *)
Lemma field_details_single (name : FieldName) (v : jsval) :
  Joi.details_of (validate_field prefs name v) = []
  \/ exists item, Joi.details_of (validate_field prefs name v) = [item]
                  /\ Joi.path item = key name.
Proof.
  destruct v as [| |s].
  - right. destruct name; eexists; split; reflexivity.
  - right. eexists. split; reflexivity.
  - destruct (String.eqb_spec s "") as [->|N].
    + right. unfold validate_field.
      rewrite validate_empty by apply field_allows_empty.
      eexists. split; reflexivity.
    + destruct (field_verdict name s N) as [[_ E]|[_ (code & msg & E & _)]];
        rewrite E; [left; reflexivity|right].
      eexists. split; reflexivity.
Qed.

(** X1. In each of the four fields an empty text and a missing value are
    both answered with the single message "Required" (codes [string.empty]
    and [any.required]); [null], the value of a field never typed in, is
    answered with [string.base], for which no field has a message of its
    own, so Joi's text for it is used. *)
Theorem empty_missing_and_null (name : FieldName) :
  validate_field prefs name (JStr "") =
    Joi.Invalid [ {| Joi.path := key name; Joi.type := "string.empty";
                     Joi.message := "Required" |} ]
  /\ validate_field prefs name JUndefined =
       Joi.Invalid [ {| Joi.path := key name; Joi.type := "any.required";
                        Joi.message := "Required" |} ]
  /\ validate_field prefs name JNull =
       Joi.Invalid [ {| Joi.path := key name; Joi.type := "string.base";
                        Joi.message := Joi.default_message "string.base" (key name) |} ].
Proof.
  repeat split.
  - unfold validate_field. rewrite validate_empty by apply field_allows_empty.
    destruct name; reflexivity.
  - destruct name; reflexivity.
  - destruct name; reflexivity.
Qed.

(** X2. A card number passes its field exactly when it is non-empty,
    [validateCardNumber] accepts it and [parseCardType] reads "mastercard"
    or "visa" from it; the validated value is then the text as it was. *)
Theorem card_number_passes_iff (s : string) :
  (Joi.is_valid (validate_field prefs F_card_number (JStr s)) = true <->
   s <> ""
   /\ CreditCardUtils.validateCardNumber s = true
   /\ (CreditCardUtils.parseCardType s = JStr "mastercard"
       \/ CreditCardUtils.parseCardType s = JStr "visa"))
  /\ (Joi.is_valid (validate_field prefs F_card_number (JStr s)) = true ->
      validate_field prefs F_card_number (JStr s) = Joi.Valid (JStr s)).
Proof.
  assert (P : passes F_card_number s = true <->
              CreditCardUtils.validateCardNumber s = true
              /\ (CreditCardUtils.parseCardType s = JStr "mastercard"
                  \/ CreditCardUtils.parseCardType s = JStr "visa")).
  { unfold passes. rewrite andb_true_iff, orb_true_iff, !strict_eq_true. reflexivity. }
  split.
  - rewrite field_passes_iff. split.
    + intros (s' & E & N & Q). injection E as <-. split; [exact N|]. now apply P.
    + intros (N & Q). exists s. repeat split; [exact N|]. now apply P.
  - intro V. apply field_passes_iff in V as (s' & E & N & Q). injection E as <-.
    destruct (field_verdict F_card_number s N) as [[_ E]|[Q' _]].
    + exact E.
    + rewrite Q in Q'. discriminate.
Qed.

(** X3. Whatever text is typed into whatever field, the field shows either
    no message or exactly one, and that one is among the six texts the
    schema spells out: Joi's own wording never appears for a typed text. *)
Theorem typed_text_messages (name : FieldName) (s : string) :
  Joi.messages_of (validate_field prefs name (JStr s)) = []
  \/ exists msg,
       Joi.messages_of (validate_field prefs name (JStr s)) = [msg]
       /\ In msg [ "Required"; "Must be a valid email"; "Must be a valid card";
                   "Wrong card number"; "Wrong date"; "Need 3 digits" ].
Proof.
  destruct (String.eqb_spec s "") as [->|N].
  - right. exists "Required". split; [apply validate_field_empty|]. simpl. tauto.
  - destruct (field_verdict name s N) as [[_ E]|[_ (code & msg & E & L)]];
      rewrite E; [left; reflexivity|right].
    exists msg. split; [reflexivity|].
    destruct name; cbn in L;
      repeat match type of L with
             | (if ?b then _ else _) = _ => destruct b
             end;
      try discriminate; injection L as <-; simpl; tauto.
Qed.

End Verdicts.

(** ** The form as a whole *)

Section Whole.
Context `{Joi.Builtins} `{CreditCardUtils.Helpers}.
Variable prefs : Joi.Preferences.

(** The four outcomes decide the object's outcome; these two lemmas read
    the details off them, once for each setting of [abortEarly]. *)
Lemma object_details_all (m : TypeCheckoutFormDefaultValues) :
  Joi.abortEarly prefs = false ->
  Joi.details_of (Joi.validate_keys prefs key schema (get m)) =
    flat_map (fun name => Joi.details_of (validate_field prefs name (get m name))) fields.
Proof.
  intro A. unfold schema, fields. cbn [Joi.validate_keys flat_map get fst snd].
  rewrite A.
  pose proof (validate_field_not_thrown prefs F_email (email m)) as T1.
  pose proof (validate_field_not_thrown prefs F_card_number (card_number m)) as T2.
  pose proof (validate_field_not_thrown prefs F_card_expire (card_expire m)) as T3.
  pose proof (validate_field_not_thrown prefs F_cvv (cvv m)) as T4.
  unfold validate_field, field_schema in *.
  destruct (Joi.validate prefs email_schema (key F_email) (email m));
    destruct (Joi.validate prefs card_number_schema (key F_card_number) (card_number m));
    destruct (Joi.validate prefs card_expire_schema (key F_card_expire) (card_expire m));
    destruct (Joi.validate prefs cvv_schema (key F_cvv) (cvv m));
    try contradiction; cbn [Joi.details_of app]; rewrite ?app_nil_r; reflexivity.
Qed.

Lemma object_details_first (m : TypeCheckoutFormDefaultValues) :
  Joi.abortEarly prefs = true ->
  Joi.details_of (Joi.validate_keys prefs key schema (get m)) =
    match find (fun name => negb (Joi.is_valid (validate_field prefs name (get m name)))) fields with
    | Some name => Joi.details_of (validate_field prefs name (get m name))
    | None => []
    end.
Proof.
  intro A. unfold schema, fields. cbn [Joi.validate_keys find fst snd].
  rewrite A.
  change (Joi.validate prefs email_schema (key F_email) (get m F_email))
    with (validate_field prefs F_email (get m F_email)).
  change (Joi.validate prefs card_number_schema (key F_card_number) (get m F_card_number))
    with (validate_field prefs F_card_number (get m F_card_number)).
  change (Joi.validate prefs card_expire_schema (key F_card_expire) (get m F_card_expire))
    with (validate_field prefs F_card_expire (get m F_card_expire)).
  change (Joi.validate prefs cvv_schema (key F_cvv) (get m F_cvv))
    with (validate_field prefs F_cvv (get m F_cvv)).
  pose proof (validate_field_not_thrown prefs F_email (get m F_email)) as T1.
  pose proof (validate_field_not_thrown prefs F_card_number (get m F_card_number)) as T2.
  pose proof (validate_field_not_thrown prefs F_card_expire (get m F_card_expire)) as T3.
  pose proof (validate_field_not_thrown prefs F_cvv (get m F_cvv)) as T4.
  destruct (validate_field prefs F_email (get m F_email)) eqn:E1;
    destruct (validate_field prefs F_card_number (get m F_card_number)) eqn:E2;
    destruct (validate_field prefs F_card_expire (get m F_card_expire)) eqn:E3;
    destruct (validate_field prefs F_cvv (get m F_cvv)) eqn:E4;
    try contradiction; cbn [negb Joi.is_valid Joi.details_of];
    rewrite ?E1, ?E2, ?E3, ?E4; reflexivity.
Qed.

(** Picking one key out of a list of errors that holds at most one error
    per field. *)
Lemma filter_own_key (name other : FieldName) (v : jsval) :
  filter (fun item => Joi.path item =? key name)
         (Joi.details_of (validate_field prefs other v)) =
    if FieldName_eqb other name then Joi.details_of (validate_field prefs other v) else [].
Proof.
  destruct (field_details_single prefs other v) as [E|(item & E & P)]; rewrite E.
  - now destruct (FieldName_eqb other name).
  - cbn [filter]. rewrite P. destruct other, name; reflexivity.
Qed.

Lemma errors_in_sync (c : Component) :
  reachable prefs c ->
  ReactJoi.errors (state c) =
    Joi.details_of (Joi.validate_keys prefs key schema (get (models c))).
Proof.
  intro R. now rewrite (reachable_in_sync prefs c R).
Qed.

(** X4. Between two events the submit button is enabled exactly when the
    form is not loading and every field holds a non-empty text that passes
    its check: an accepted e-mail, an accepted card number of one of the
    two brands, an accepted expiry, a CVV of three characters. *)
Theorem submit_enabled_iff (props : CheckoutFormProps) (c : Component) :
  reachable prefs c ->
  (button_disabled (render props c) = false <->
   loading props = false
   /\ forall name, exists s,
        get (models c) name = JStr s /\ s <> "" /\ passes name s = true).
Proof.
  intro R. rewrite (disabled_in_sync prefs props c R).
  rewrite orb_false_iff, negb_false_iff, object_valid_iff.
  split.
  - intros [V L]. split; [exact L|]. intro name.
    now apply field_passes_iff with (prefs := prefs).
  - intros [L V]. split; [|exact L]. intro name. apply field_passes_iff, V.
Qed.

Lemma getErrors_without_abortEarly (c : Component) (name : FieldName) :
  reachable prefs c ->
  Joi.abortEarly prefs = false ->
  getErrors c name =
    join "," (Joi.messages_of (validate_field prefs name (get (models c) name))).
Proof.
  intros R A. unfold getErrors, ReactJoi.errors_at.
  rewrite (errors_in_sync c R), (object_details_all _ A).
  unfold fields. cbn [flat_map]. rewrite !filter_app, !filter_own_key.
  destruct name; cbn [FieldName_eqb app filter]; rewrite ?app_nil_r; reflexivity.
Qed.

(** X6. Between two events [getErrors] of a field is either empty or the
    one message that field's own value draws, never a message of another
    field and never several joined by a comma; it is empty when the field's
    value passes. *)
Theorem getErrors_own_message (c : Component) (name : FieldName) :
  reachable prefs c ->
  (getErrors c name = ""
   \/ Joi.messages_of (validate_field prefs name (get (models c) name)) = [getErrors c name])
  /\ (Joi.is_valid (validate_field prefs name (get (models c) name)) = true ->
      getErrors c name = "").
Proof.
  intro R.
  assert (G : ReactJoi.errors_at key (state c) name = []
              \/ ReactJoi.errors_at key (state c) name =
                   Joi.details_of (validate_field prefs name (get (models c) name))).
  { unfold ReactJoi.errors_at.
    destruct (Joi.abortEarly prefs) eqn:A.
    - rewrite (errors_in_sync c R), (object_details_first _ A).
      destruct (find _ fields) as [other|]; [|left; reflexivity].
      rewrite filter_own_key.
      destruct other, name; cbn [FieldName_eqb]; (left; reflexivity) || (right; reflexivity).
    - right. rewrite (errors_in_sync c R), (object_details_all _ A).
      unfold fields. cbn [flat_map]. rewrite !filter_app, !filter_own_key.
      destruct name; cbn [FieldName_eqb app filter]; rewrite ?app_nil_r; reflexivity. }
  assert (S : forall l, l = [] \/ (exists item, l = [item] /\ Joi.path item = key name) ->
                        join "," (map Joi.message l) = ""
                        \/ map Joi.message l = [join "," (map Joi.message l)]).
  { intros l [->|(item & -> & _)]; [left|right]; reflexivity. }
  unfold getErrors. split.
  - destruct G as [G|G]; rewrite G; [left; reflexivity|].
    apply S, field_details_single.
  - intro V. destruct G as [G|G]; rewrite G; [reflexivity|].
    destruct (validate_field prefs name (get (models c) name)); try discriminate.
    reflexivity.
Qed.

(** X7. When all four fields pass, the object Joi reports as validated
    keeps the e-mail, the card number and the CVV as they were typed and
    has no expiry: the expiry's method returned nothing. *)
Theorem validated_object_drops_expiry (m : TypeCheckoutFormDefaultValues) :
  (forall name, Joi.is_valid (validate_field prefs name (get m name)) = true) ->
  Joi.validate_keys prefs key schema (get m) =
    Joi.Valid [ (F_email, email m); (F_card_number, card_number m);
                (F_card_expire, JUndefined); (F_cvv, cvv m) ].
Proof.
  intro V.
  assert (E : forall name, validate_field prefs name (get m name) =
                           Joi.Valid (match name with
                                      | F_card_expire => JUndefined
                                      | _ => get m name
                                      end)).
  { intro name. destruct (proj1 (field_passes_iff prefs name _) (V name)) as (s & E & N & P).
    rewrite E. destruct (field_verdict prefs name s N) as [[_ Q]|[Q _]].
    - rewrite Q. destruct name; reflexivity.
    - rewrite P in Q. discriminate. }
  pose proof (E F_email) as E1. pose proof (E F_card_number) as E2.
  pose proof (E F_card_expire) as E3. pose proof (E F_cvv) as E4.
  unfold validate_field, field_schema, get in E1, E2, E3, E4.
  unfold schema. cbn [Joi.validate_keys get fst snd].
  rewrite E1, E2, E3, E4. reflexivity.
Qed.

End Whole.

(** ** Whole runs of events *)

Section WholeRuns.
Context `{Joi.Builtins} `{CreditCardUtils.Helpers}.
Variable prefs : Joi.Preferences.

(** A change event writes its own field and no other. *)
Lemma get_onChange (n name : FieldName) (target_value : string)
    (m : TypeCheckoutFormDefaultValues) :
  get (onChange n target_value m) name =
    if FieldName_eqb n name then stored n target_value else get m name.
Proof.
  destruct n, name; reflexivity.
Qed.

Lemma run_app (es es' : list Event) (c : Component) :
  run prefs (es ++ es')%list c = run prefs es' (run prefs es c).
Proof.
  revert c. induction es as [|e es IH]; intro c; [reflexivity|apply IH].
Qed.

Lemma calls_of_app (es es' : list Event) (c : Component) :
  calls_of prefs (es ++ es')%list c
  = (calls_of prefs es c ++ calls_of prefs es' (run prefs es c))%list.
Proof.
  revert c. induction es as [|e es IH]; intro c; [reflexivity|].
  cbn [app calls_of run]. now rewrite IH, app_assoc.
Qed.

Lemma onSuccess_calls_app (l l' : list Call) :
  onSuccess_calls (l ++ l')%list = (onSuccess_calls l ++ onSuccess_calls l')%list.
Proof.
  apply flat_map_app.
Qed.

(** X9. After any list of events each field of the model holds what the
    last change event for that field stored (the typed text, formatted for
    the card number and the expiry), or what it held before when no event
    changed it: [null] when the run starts at mounting.  Changes to other
    fields and submits leave a field alone, and the validator's data holds
    the same values. *)
Theorem model_holds_last_stored (es : list Event) (c : Component) (name : FieldName) :
  get (models (run prefs es c)) name = last_stored name es (get (models c) name)
  /\ get (models (run prefs es (mount prefs))) name = last_stored name es JNull
  /\ get (ReactJoi.data (state (run prefs es (mount prefs)))) name
       = last_stored name es JNull.
Proof.
  assert (G : forall c', get (models (run prefs es c')) name
                         = last_stored name es (get (models c') name)).
  { induction es as [|[n v|] es IH]; intro c'; cbn [run last_stored].
    - reflexivity.
    - rewrite IH. cbn [step fst sync models]. now rewrite get_onChange.
    - apply IH. }
  repeat split.
  - apply G.
  - rewrite G. f_equal. now destruct name.
  - rewrite (reachable_in_sync prefs _ (reachable_run prefs es _ (reachable_mount prefs))).
    cbn [ReactJoi.data ReactJoi.evaluate]. rewrite G. f_equal. now destruct name.
Qed.

(** X10. Over any list of events [onSuccess] is called once per submit
    event and never by a change; a submit that follows a list of events
    hands over the model as those events left it. *)
Theorem one_callback_per_submit (es : list Event) (c : Component) :
  reachable prefs c ->
  List.length (onSuccess_calls (calls_of prefs es c)) = List.length (filter is_submit es)
  /\ onSuccess_calls (calls_of prefs (es ++ [Submit])%list c)
       = (onSuccess_calls (calls_of prefs es c) ++ [models (run prefs es c)])%list.
Proof.
  intro R. split.
  - clear R. revert c. induction es as [|[n v|] es IH]; intro c; cbn [calls_of filter is_submit].
    + reflexivity.
    + apply IH.
    + cbn [step snd fst onSubmit app onSuccess_calls flat_map List.length].
      f_equal. apply IH.
  - rewrite calls_of_app, onSuccess_calls_app. f_equal.
    cbn [calls_of step snd fst onSubmit app onSuccess_calls flat_map].
    now rewrite (reachable_in_sync prefs _ (reachable_run prefs es c R)).
Qed.

(** X11. The validation options do not reach the model, the validator's
    data, the submit button or the calls: two forms that differ only in
    [abortEarly] agree on all of these after the same events. *)
Theorem abortEarly_does_not_matter (other : Joi.Preferences) (props : CheckoutFormProps)
    (es : list Event) :
  let c := run prefs es (mount prefs) in
  let c' := run other es (mount other) in
  models c = models c'
  /\ ReactJoi.data (state c) = ReactJoi.data (state c')
  /\ button_disabled (render props c) = button_disabled (render props c')
  /\ calls_of prefs es (mount prefs) = calls_of other es (mount other).
Proof.
  assert (G : forall c c' : Component,
             models c = models c' ->
             ReactJoi.data (state c) = ReactJoi.data (state c') ->
             models (run prefs es c) = models (run other es c')
             /\ calls_of prefs es c = calls_of other es c').
  { induction es as [|[n v|] es IH]; intros c c' M D; cbn [run calls_of].
    - split; [exact M|reflexivity].
    - cbn [step snd fst app]. apply IH.
      + cbn [sync models]. now rewrite M.
      + cbn [sync models state setData ReactJoi.setData ReactJoi.evaluate ReactJoi.data].
        now rewrite M.
    - cbn [step snd fst]. unfold onSubmit. rewrite D.
      destruct (IH c c' M D) as [M' C']. split; [exact M'|]. now rewrite C'. }
  intros c c'. destruct (G (mount prefs) (mount other) eq_refl eq_refl) as [M C].
  assert (R : reachable prefs c) by apply reachable_run, reachable_mount.
  assert (R' : reachable other c') by apply reachable_run, reachable_mount.
  repeat split.
  - exact M.
  - rewrite (reachable_in_sync prefs c R), (reachable_in_sync other c' R'). exact M.
  - rewrite (disabled_in_sync prefs props c R), (disabled_in_sync other props c' R').
    fold c c' in M. rewrite <- M. f_equal. f_equal.
    destruct (Joi.is_valid (Joi.validate_keys other key schema (get (models c)))) eqn:V.
    + apply object_valid_iff. intro name.
      rewrite (validate_field_any_prefs prefs other). now apply object_valid_iff.
    + apply not_true_iff_false. intro V'. apply not_true_iff_false in V. apply V.
      apply object_valid_iff. intro name.
      rewrite <- (validate_field_any_prefs prefs other). now apply object_valid_iff.
  - exact C.
Qed.

End WholeRuns.

(** ** What the customer sees and what the caller gets *)

Section Outside.
Context `{Joi.Builtins} `{CreditCardUtils.Helpers}.
Variable prefs : Joi.Preferences.

(** X12. Without [abortEarly], between two events, a field that holds a
    typed text shows an error text exactly when the text fails, and then
    the one message the text draws; the labels of the e-mail and the card
    number are marked exactly when their text fails, and the expiry and the
    CVV, which have no label, are never marked. *)
Theorem rendered_errors_of_typed_text (props : CheckoutFormProps) (c : Component)
    (name : FieldName) (s : string) :
  reachable prefs c ->
  Joi.abortEarly prefs = false ->
  get (models c) name = JStr s ->
  error_message (render props c) name =
    match Joi.messages_of (validate_field prefs name (JStr s)) with
    | [] => None
    | msg :: _ => Some msg
    end
  /\ label_error (render props c) name =
       match name with
       | F_email | F_card_number => negb (Joi.is_valid (validate_field prefs name (JStr s)))
       | _ => false
       end.
Proof.
  intros R A G.
  assert (E : getErrors c name
              = join "," (Joi.messages_of (validate_field prefs name (JStr s)))).
  { rewrite (getErrors_without_abortEarly prefs c name R A), G. reflexivity. }
  assert (V : Joi.is_valid (validate_field prefs name (JStr s)) = true ->
              Joi.messages_of (validate_field prefs name (JStr s)) = []).
  { destruct (validate_field prefs name (JStr s)); try discriminate. reflexivity. }
  assert (F : Joi.is_valid (validate_field prefs name (JStr s)) = false ->
              exists msg, Joi.messages_of (validate_field prefs name (JStr s)) = [msg]
                          /\ (msg =? "") = false).
  { intro I. destruct (String.eqb_spec s "") as [->|N].
    - exists "Required". split; [apply validate_field_empty|reflexivity].
    - destruct (field_verdict prefs name s N) as [[_ Q]|[_ (code & msg & Q & L)]];
        rewrite Q in *; [discriminate|].
      exists msg. split; [reflexivity|].
      destruct name; cbn in L;
        repeat match type of L with
               | (if ?b then _ else _) = _ => destruct b
               end;
        try discriminate; injection L as <-; reflexivity. }
  cbn [render error_message label_error]. rewrite E.
  destruct (Joi.is_valid (validate_field prefs name (JStr s))) eqn:I.
  - rewrite (V eq_refl). cbn [join]. split; [reflexivity|now destruct name].
  - destruct (F eq_refl) as (msg & -> & M). cbn [join]. rewrite M.
    split; [reflexivity|now destruct name].
Qed.

(** X13. A submit while the button is enabled hands [onSuccess] four
    non-empty texts, each of which passes its field's check. *)
Theorem enabled_submit_hands_over_passing_texts (props : CheckoutFormProps) (c : Component) :
  reachable prefs c ->
  button_disabled (render props c) = false ->
  exists e n x v : string,
    onSuccess_calls (snd (step prefs Submit c))
      = [ {| email := JStr e; card_number := JStr n; card_expire := JStr x; cvv := JStr v |} ]
    /\ (e <> "" /\ passes F_email e = true)
    /\ (n <> "" /\ passes F_card_number n = true)
    /\ (x <> "" /\ passes F_card_expire x = true)
    /\ (v <> "" /\ passes F_cvv v = true).
Proof.
  intros R D. rewrite (disabled_in_sync prefs props c R) in D.
  apply orb_false_iff in D as [D _]. apply negb_false_iff in D.
  rewrite object_valid_iff in D.
  destruct (proj1 (field_passes_iff prefs _ _) (D F_email)) as (e & Ee & Ne & Pe).
  destruct (proj1 (field_passes_iff prefs _ _) (D F_card_number)) as (n & En & Nn & Pn).
  destruct (proj1 (field_passes_iff prefs _ _) (D F_card_expire)) as (x & Ex & Nx & Px).
  destruct (proj1 (field_passes_iff prefs _ _) (D F_cvv)) as (v & Ev & Nv & Pv).
  exists e, n, x, v. repeat split; try assumption.
  change (onSuccess_calls (snd (step prefs Submit c))) with [ReactJoi.data (state c)].
  rewrite (reachable_in_sync prefs c R). cbn [ReactJoi.data ReactJoi.evaluate].
  clear D R. destruct (models c) as [me mn mx mv]. simpl in Ee, En, Ex, Ev.
  now subst.
Qed.

(** X14. In every state of the form each field of the model, and of the
    data the validator holds, is [null] or a text; no event puts
    [undefined] there. *)
Theorem fields_are_null_or_text (c : Component) (name : FieldName) :
  reachable prefs c ->
  (get (models c) name = JNull \/ exists s, get (models c) name = JStr s)
  /\ get (ReactJoi.data (state c)) name = get (models c) name.
Proof.
  intro R. split.
  - induction R as [|[n v|] c R IH].
    + left. now destruct name.
    + cbn [step fst sync models]. rewrite get_onChange.
      destruct (FieldName_eqb n name); [right|exact IH].
      destruct n; eexists; reflexivity.
    + exact IH.
  - now rewrite (reachable_in_sync prefs c R).
Qed.

End Outside.

(** ** The further properties on the filled-in form *)

(** The filled-in form after the e-mail was replaced by a name without [@]. *)
Lemma mistyped_is_reachable :
  @reachable Sample.builtins Sample.helpers Sample.prefs
    (Sample.after_events [Change F_email "john"] Sample.filled).
Proof.
  apply reachable_run, filled_is_reachable.
Defined.

Lemma submit_enabled_iff_filled :
  button_disabled (render defaultProps Sample.filled) = false <->
  loading defaultProps = false
  /\ forall name, exists s,
       get (models Sample.filled) name = JStr s /\ s <> ""
       /\ @passes Sample.builtins Sample.helpers name s = true.
Proof.
  apply (@submit_enabled_iff Sample.builtins Sample.helpers Sample.prefs
           defaultProps Sample.filled).
  exact filled_is_reachable.
Defined.

Lemma getErrors_own_message_mistyped :
  getErrors (Sample.after_events [Change F_email "john"] Sample.filled) F_cvv = "".
Proof.
  apply (proj2 (@getErrors_own_message Sample.builtins Sample.helpers Sample.prefs
                  (Sample.after_events [Change F_email "john"] Sample.filled) F_cvv
                  mistyped_is_reachable)).
  vm_compute. reflexivity.
Defined.

Lemma validated_object_drops_expiry_filled :
  @Joi.validate_keys Sample.builtins FieldName Sample.prefs key (@schema Sample.helpers)
    (get (models Sample.filled)) =
    Joi.Valid [ (F_email, JStr "john@example.com");
                (F_card_number, JStr "4242 4242 4242 4242");
                (F_card_expire, JUndefined);
                (F_cvv, JStr "123") ].
Proof.
  apply (@validated_object_drops_expiry Sample.builtins Sample.helpers Sample.prefs
           (models Sample.filled)).
  intros []; vm_compute; reflexivity.
Defined.

Lemma one_callback_per_submit_filled :
  List.length
    (onSuccess_calls
       (@calls_of Sample.builtins Sample.helpers Sample.prefs
          [Submit; Change F_cvv "999"; Submit] Sample.filled)) = 2.
Proof.
  apply (proj1 (@one_callback_per_submit Sample.builtins Sample.helpers Sample.prefs
                  [Submit; Change F_cvv "999"; Submit] Sample.filled
                  filled_is_reachable)).
Defined.

Lemma rendered_errors_of_typed_text_mistyped :
  error_message
    (render defaultProps (Sample.after_events [Change F_email "john"] Sample.filled))
    F_email = Some "Must be a valid email"
  /\ label_error
       (render defaultProps (Sample.after_events [Change F_email "john"] Sample.filled))
       F_email = true.
Proof.
  apply (@rendered_errors_of_typed_text Sample.builtins Sample.helpers Sample.prefs
           defaultProps (Sample.after_events [Change F_email "john"] Sample.filled)
           F_email "john").
  - exact mistyped_is_reachable.
  - reflexivity.
  - reflexivity.
Defined.

Lemma enabled_submit_hands_over_passing_texts_filled :
  exists e n x v : string,
    onSuccess_calls (snd (Sample.submit Sample.filled))
      = [ {| email := JStr e; card_number := JStr n; card_expire := JStr x; cvv := JStr v |} ]
    /\ (e <> "" /\ @passes Sample.builtins Sample.helpers F_email e = true)
    /\ (n <> "" /\ @passes Sample.builtins Sample.helpers F_card_number n = true)
    /\ (x <> "" /\ @passes Sample.builtins Sample.helpers F_card_expire x = true)
    /\ (v <> "" /\ @passes Sample.builtins Sample.helpers F_cvv v = true).
Proof.
  apply (@enabled_submit_hands_over_passing_texts
           Sample.builtins Sample.helpers Sample.prefs defaultProps Sample.filled).
  - exact filled_is_reachable.
  - vm_compute. reflexivity.
Defined.

Lemma fields_are_null_or_text_filled :
  (get (models Sample.filled) F_email = JNull
   \/ exists s, get (models Sample.filled) F_email = JStr s)
  /\ get (ReactJoi.data (state Sample.filled)) F_email = get (models Sample.filled) F_email.
Proof.
  apply (@fields_are_null_or_text Sample.builtins Sample.helpers Sample.prefs
           Sample.filled F_email).
  exact filled_is_reachable.
Defined.

(** ** The e-mail field under Joi's check *)

Section Email.
Context `{Joi.Builtins} `{CreditCardUtils.Helpers}.
Variable prefs : Joi.Preferences.




End Email.



